(** * NGC Assignment Tracker: the session store of [app.py]

    [app.py] is a Streamlit script.  Everything it remembers lives in two
    session variables, [st.session_state.assignments] (the store) and
    [st.session_state.assignment_counter] (the next id).  The handlers that
    touch them are embedded here:

    - the submitted branch of [create_assignment]          (lines 130-154),
    - the update form of [manage_assignments]              (lines 308-326),
    - the filter chain of [manage_assignments]             (lines 263-271),
    - the overdue metric of [dashboard]                    (lines 182-183),
    - the export button and the import uploader            (lines 448-472).

    The store holds plain Python objects (dicts built by the create form, or
    whatever [json.load] returned), so records are modelled as Python values
    and not as a typed record: the import handler checks nothing, and several
    properties below depend on exactly that.

    What is outside the repository is kept abstract or is modelled by its
    documented behaviour: the JSON text layer ([json.dumps]/[json.load]) is
    represented by the value tree it serialises, numbers are integers (a JSON
    document with fractional numbers is outside the model), pandas' date
    parser is a section variable, and widgets are the ranges they are declared
    with. *)

From Stdlib Require Import ZArith String Ascii Bool Lia DecimalString.
From stdpp Require Import base list.

Set Warnings "-register-all".

Local Open Scope Z_scope.
Local Open Scope list_scope.

(** ** Python values and the builtins the script uses *)

Module Py.

(** The values [json.load] produces, which are also the values the create
    form builds.  A dict keeps its insertion order, as Python dicts do; a
    Python dict never holds a key twice. *)
Inductive pyval : Type :=
| PNone
| PBool (b : bool)
| PInt (n : Z)
| PStr (s : string)
| PList (items : list pyval)
| PDict (entries : list (string * pyval)).

Inductive exn : Type :=
| KeyError (key : string)
| IndexError
| TypeError
| AttributeError
| ValueError
| JSONDecodeError.

(** The result of evaluating an expression: a value, or a raised exception. *)
Inductive res (A : Type) : Type :=
| Ok (a : A)
| Raise (e : exn).
Arguments Ok {A} a.
Arguments Raise {A} e.

Definition res_bind {A B} (r : res A) (k : A -> res B) : res B :=
  match r with
  | Ok a => k a
  | Raise e => Raise e
  end.

Fixpoint res_map_list {A B} (f : A -> res B) (l : list A) : res (list B) :=
  match l with
  | [] => Ok []
  | x :: rest =>
      res_bind (f x) (fun y =>
      res_bind (res_map_list f rest) (fun ys => Ok (y :: ys)))
  end.

(** [bool(v)] *)
Definition truthy (v : pyval) : bool :=
  match v with
  | PNone => false
  | PBool b => b
  | PInt n => negb (n =? 0)
  | PStr s => negb (s =? "")%string
  | PList items => match items with [] => false | _ => true end
  | PDict entries => match entries with [] => false | _ => true end
  end.

Definition str_truthy (s : string) : bool := negb (s =? "")%string.

(** *** Dicts *)

Fixpoint dict_get (k : string) (d : list (string * pyval)) : option pyval :=
  match d with
  | [] => None
  | (k', v) :: rest => if (k' =? k)%string then Some v else dict_get k rest
  end.

(** [d[k] = v]: an existing key keeps its place, a new key goes last. *)
Fixpoint dict_set (k : string) (v : pyval) (d : list (string * pyval))
  : list (string * pyval) :=
  match d with
  | [] => [(k, v)]
  | (k', v') :: rest =>
      if (k' =? k)%string then (k', v) :: rest
      else (k', v') :: dict_set k v rest
  end.

(** [v[k]] for a string [k]: only a dict can be indexed by a string. *)
Definition getitem (v : pyval) (k : string) : res pyval :=
  match v with
  | PDict d =>
      match dict_get k d with
      | Some x => Ok x
      | None => Raise (KeyError k)
      end
  | _ => Raise TypeError
  end.

(** [v[k] = x] *)
Definition setitem (v : pyval) (k : string) (x : pyval) : res pyval :=
  match v with
  | PDict d => Ok (PDict (dict_set k x d))
  | _ => Raise TypeError
  end.

(** [k in v] for a string [k] *)
Definition contains (k : string) (v : pyval) : res bool :=
  match v with
  | PDict d => Ok (match dict_get k d with Some _ => true | None => false end)
  | PList items =>
      Ok (existsb (fun x => match x with PStr s => (s =? k)%string | _ => false end)
            items)
  | PStr s =>
      Ok (match index 0 k s with Some _ => true | None => false end)
  | _ => Raise TypeError
  end.

(** [v.append(x)]: only lists have the method. *)
Definition append (v x : pyval) : res pyval :=
  match v with
  | PList items => Ok (PList (items ++ [x]))
  | _ => Raise AttributeError
  end.

(** [for a in v]: a list yields its items, a dict its keys, a string its
    characters; nothing else in this universe is iterable. *)
Definition iter (v : pyval) : res (list pyval) :=
  match v with
  | PList items => Ok items
  | PDict entries => Ok (map (fun kv => PStr (fst kv)) entries)
  | PStr s => Ok (map (fun c => PStr (String c EmptyString)) (list_ascii_of_string s))
  | _ => Raise TypeError
  end.

(** *** Comparison and arithmetic *)

Definition as_int (v : pyval) : option Z :=
  match v with
  | PInt n => Some n
  | PBool b => Some (Z.b2z b)
  | _ => None
  end.

(** [a == b]: numbers compare by value ([True == 1]), dicts regardless of
    order, everything else structurally; values of different kinds are
    unequal. *)
Fixpoint eq (a b : pyval) {struct a} : bool :=
  match a, b with
  | PNone, PNone => true
  | PBool x, PBool y => Bool.eqb x y
  | PBool x, PInt y => Z.b2z x =? y
  | PInt x, PBool y => x =? Z.b2z y
  | PInt x, PInt y => x =? y
  | PStr x, PStr y => (x =? y)%string
  | PList xs, PList ys =>
      (fix all2 (xs : list pyval) (ys : list pyval) : bool :=
         match xs, ys with
         | [], [] => true
         | x :: xs', y :: ys' => eq x y && all2 xs' ys'
         | _, _ => false
         end) xs ys
  | PDict d1, PDict d2 =>
      (length d1 =? length d2)%nat &&
      (fix sub (d : list (string * pyval)) : bool :=
         match d with
         | [] => true
         | (k, v) :: d' =>
             match dict_get k d2 with
             | Some v' => eq v v' && sub d'
             | None => false
             end
         end) d1
  | _, _ => false
  end.

(** [a > b].  Numbers and strings are ordered, lists lexicographically (the
    first unequal pair decides, else the longer list is greater); any other
    pairing raises [TypeError]. *)
Fixpoint gt (a b : pyval) {struct a} : res bool :=
  match a, b with
  | PStr x, PStr y => Ok (String.ltb y x)
  | PList xs, PList ys =>
      (fix lex (xs : list pyval) (ys : list pyval) : res bool :=
         match xs, ys with
         | x :: xs', y :: ys' => if eq x y then lex xs' ys' else gt x y
         | _ :: _, [] => Ok true
         | [], _ => Ok false
         end) xs ys
  | _, _ =>
      match as_int a, as_int b with
      | Some x, Some y => Ok (y <? x)
      | _, _ => Raise TypeError
      end
  end.

(** [max(items)]: the first item that no later item exceeds; [ValueError]
    on an empty sequence. *)
Fixpoint max_from (best : pyval) (items : list pyval) : res pyval :=
  match items with
  | [] => Ok best
  | x :: rest =>
      res_bind (gt x best) (fun bigger =>
      max_from (if bigger then x else best) rest)
  end.

Definition max (items : list pyval) : res pyval :=
  match items with
  | [] => Raise ValueError
  | x :: rest => max_from x rest
  end.

(** [v + n] for an integer [n]: defined on numbers only ([str + int],
    [list + int], [None + int] and [dict + int] raise [TypeError]). *)
Definition add_int (v : pyval) (n : Z) : res Z :=
  match as_int v with
  | Some x => Ok (x + n)
  | None => Raise TypeError
  end.

End Py.

(** ** Dates and times: [datetime.date], [datetime.datetime], [strftime] *)

Module Clock.

Record date : Type := { year : Z; month : Z; day : Z }.

Record datetime : Type :=
  { on_date : date; hour : Z; minute : Z; second : Z; microsecond : Z }.

Definition midnight (d : date) : datetime :=
  {| on_date := d; hour := 0; minute := 0; second := 0; microsecond := 0 |}.

Definition fields (t : datetime) : list Z :=
  [year (on_date t); month (on_date t); day (on_date t);
   hour t; minute t; second t; microsecond t].

Fixpoint lex_ltb (a b : list Z) : bool :=
  match a, b with
  | x :: a', y :: b' => (x <? y) || ((x =? y) && lex_ltb a' b')
  | [], _ :: _ => true
  | _, [] => false
  end.

(** [a < b] on datetimes: chronological, that is field by field. *)
Definition datetime_ltb (a b : datetime) : bool := lex_ltb (fields a) (fields b).

Definition digits (n : Z) : string := NilZero.string_of_uint (N.to_uint (Z.to_N n)).

Fixpoint zeros (n : nat) : string :=
  match n with
  | O => EmptyString
  | S n' => String "0" (zeros n')
  end.

(** a number in at least [width] digits, as [%Y], [%m], [%d], [%H], [%M] print it *)
Definition zero_pad (width : nat) (n : Z) : string :=
  let s := digits n in (zeros (width - String.length s) ++ s)%string.

(** [d.strftime('%Y-%m-%d')] *)
Definition strftime_Ymd (d : date) : string :=
  (zero_pad 4 (year d) ++ "-" ++ zero_pad 2 (month d) ++ "-" ++ zero_pad 2 (day d))%string.

Definition strftime_HM (sep : string) (t : datetime) : string :=
  (zero_pad 2 (hour t) ++ sep ++ zero_pad 2 (minute t))%string.

(** [t.strftime('%Y-%m-%d %H:%M')] *)
Definition strftime_Ymd_HM (t : datetime) : string :=
  (strftime_Ymd (on_date t) ++ " " ++ strftime_HM ":" t)%string.

(** [t.strftime('%Y%m%d_%H%M')] *)
Definition strftime_compact (t : datetime) : string :=
  (zero_pad 4 (year (on_date t)) ++ zero_pad 2 (month (on_date t))
     ++ zero_pad 2 (day (on_date t)) ++ "_" ++ strftime_HM "" t)%string.

(** [t.isoformat()]: the microseconds are printed only when they are not 0. *)
Definition isoformat (t : datetime) : string :=
  (strftime_Ymd (on_date t) ++ "T" ++ strftime_HM ":" t ++ ":" ++ zero_pad 2 (second t)
     ++ (if (microsecond t =? 0)%Z then "" else "." ++ zero_pad 6 (microsecond t)))%string.

Definition leap_year (y : Z) : bool :=
  ((y mod 4 =? 0) && negb (y mod 100 =? 0)) || (y mod 400 =? 0).

Definition days_in_month (y m : Z) : Z :=
  if m =? 2 then (if leap_year y then 29 else 28)
  else if (m =? 4) || (m =? 6) || (m =? 9) || (m =? 11) then 30
  else 31.

Definition number (s : string) : option Z :=
  match NilEmpty.uint_of_string s with
  | Some u => Some (Z.of_N (N.of_uint u))
  | None => None
  end.

(** The date written as [YYYY-MM-DD], the form [strftime_Ymd] produces. *)
Definition parse_Ymd (s : string) : option date :=
  if negb (String.length s =? 10)%nat then None
  else if negb ((substring 4 1 s =? "-") && (substring 7 1 s =? "-"))%string then None
  else
    match number (substring 0 4 s), number (substring 5 2 s), number (substring 8 2 s) with
    | Some y, Some m, Some d =>
        if (1 <=? m) && (m <=? 12) && (1 <=? d) && (d <=? days_in_month y m)
        then Some {| year := y; month := m; day := d |}
        else None
    | _, _, _ => None
    end.

End Clock.

(** ** The session: [st.session_state] and the handlers' control flow *)

Module Session.
Import Py.

Record session_state : Type :=
  { assignments : pyval;          (* st.session_state.assignments *)
    assignment_counter : Z }.     (* st.session_state.assignment_counter *)

(** Lines 18-22: a new session starts with no record and the counter at 1. *)
Definition initial : session_state :=
  {| assignments := PList []; assignment_counter := 1 |}.

(** A handler reads and writes the session and either returns or raises; a
    raised exception keeps every write made before it. *)
Definition M (A : Type) : Type := session_state -> res A * session_state.

Definition ret {A} (a : A) : M A := fun s => (Ok a, s).

Definition bind {A B} (m : M A) (k : A -> M B) : M B :=
  fun s =>
    match m s with
    | (Ok a, s') => k a s'
    | (Raise e, s') => (Raise e, s')
    end.

Definition lift {A} (r : res A) : M A := fun s => (r, s).

Definition get_assignments : M pyval := fun s => (Ok (assignments s), s).

Definition set_assignments (v : pyval) : M unit :=
  fun s => (Ok tt, {| assignments := v; assignment_counter := assignment_counter s |}).

Definition get_counter : M Z := fun s => (Ok (assignment_counter s), s).

Definition set_counter (n : Z) : M unit :=
  fun s => (Ok tt, {| assignments := assignments s; assignment_counter := n |}).

(** [try: body / except Exception as e: handler(e)] *)
Definition try_except {A} (body : M A) (handler : exn -> M A) : M A :=
  fun s =>
    match body s with
    | (Ok a, s') => (Ok a, s')
    | (Raise e, s') => handler e s'
    end.

End Session.

Declare Scope session_scope.
Delimit Scope session_scope with session.
Notation "x <- m ;; k" := (Session.bind m (fun x => k))
  (at level 100, m at next level, right associativity) : session_scope.
Notation "m ;; k" := (Session.bind m (fun _ => k))
  (at level 100, right associativity) : session_scope.

(** ** The handlers of [app.py] *)

Module App.
Import Py Clock Session.
Local Open Scope session_scope.


Definition PRIORITY_LEVELS : list string := ["Low"; "Medium"; "High"; "Critical"]%string.

Definition STATUS_OPTIONS : list string :=
  ["Not Started"; "In Progress"; "Under Review"; "Completed"; "On Hold"]%string.

(** The options of the category selectbox (lines 112-121). *)
Definition CATEGORIES : list string :=
  ["Design Review"; "Technical Specification"; "Quality Assurance";
   "Project Planning"; "System Analysis"; "Documentation";
   "Testing & Commissioning"; "Other"]%string.

(** The content of a file: the text of a JSON value, or something
    [json.load] cannot parse. *)
Inductive uploaded : Type :=
| NotJson
| Json (doc : pyval).

(** What a handler shows to the user. *)
Inductive feedback : Type :=
| st_success (msg : string)
| st_error (msg : string)
| st_error_with (msg : string) (e : exn)     (* f"{msg}{str(e)}" *)
| st_warning (msg : string)
| st_info (msg : string)
| st_download_button (data : uploaded) (file_name : string).

Definition is_error (fb : feedback) : bool :=
  match fb with
  | st_error _ | st_error_with _ _ => true
  | _ => false
  end.

(** *** Create Assignment (lines 99-154) *)

(** The values of the form's widgets when it is submitted. *)
Record create_form : Type :=
  { title : string;             (* st.text_input *)
    assigned_to : string;       (* st.selectbox over CHIEF_ENGINEERS *)
    priority : string;          (* st.selectbox over PRIORITY_LEVELS *)
    due_date : date;            (* st.date_input *)
    category : string;          (* st.selectbox over the categories *)
    estimated_hours : Z;        (* st.number_input, 1..1000 *)
    status : string;            (* st.selectbox over STATUS_OPTIONS *)
    description : string;       (* st.text_area *)
    deliverables : string }.    (* st.text_area *)

(** [title and assigned_to and description] *)
Definition required_fields (f : create_form) : bool :=
  str_truthy (title f) && str_truthy (assigned_to f) && str_truthy (description f).

Definition new_assignment (f : create_form) (now : datetime) (counter : Z) : pyval :=
  PDict [("id", PInt counter);
         ("title", PStr (title f));
         ("assigned_to", PStr (assigned_to f));
         ("priority", PStr (priority f));
         ("status", PStr (status f));
         ("category", PStr (category f));
         ("description", PStr (description f));
         ("deliverables", PStr (deliverables f));
         ("due_date", PStr (strftime_Ymd (due_date f)));
         ("created_date", PStr (strftime_Ymd_HM now));
         ("estimated_hours", PInt (estimated_hours f));
         ("actual_hours", PInt 0);
         ("progress_percentage", PInt 0);
         ("comments", PList [])]%string.

(** The [if submitted:] branch, lines 130-154. *)
Definition create_assignment (f : create_form) (now : datetime) : M feedback :=
  if required_fields f then
    counter <- get_counter ;;
    store <- get_assignments ;;
    store' <- lift (append store (new_assignment f now counter)) ;;
    set_assignments store' ;;
    counter <- get_counter ;;
    set_counter (counter + 1) ;;
    ret (st_success ("✅ Assignment '" ++ title f ++ "' created successfully!")%string)
  else
    ret (st_error "❌ Please fill in all required fields marked with *"%string).

(** *** Manage Assignments: the update form (lines 289-326) *)

Record update_form : Type :=
  { target_id : pyval;          (* assignment['id'] of the row the form belongs to *)
    new_status : string;        (* st.selectbox over STATUS_OPTIONS *)
    new_progress : Z;           (* st.slider 0..100 *)
    actual_hours : Z;           (* st.number_input, min_value=0 *)
    comment : string }.         (* st.text_area *)

(** [st.session_state.assignments[i]] *)
Definition record_at (i : nat) : M pyval :=
  store <- get_assignments ;;
  match store with
  | PList items =>
      match items !! i with
      | Some a => ret a
      | None => lift (Raise IndexError)
      end
  | _ => lift (Raise TypeError)
  end.

(** The record at position [i] is the object [a]: writes to a record of the
    store are writes to that position. *)
Definition put_record_at (i : nat) (a : pyval) : M unit :=
  store <- get_assignments ;;
  match store with
  | PList items => set_assignments (PList (<[i := a]> items))
  | _ => lift (Raise TypeError)
  end.

(** [st.session_state.assignments[i][k] = v] *)
Definition store_setitem (i : nat) (k : string) (v : pyval) : M unit :=
  a <- record_at i ;;
  a' <- lift (setitem a k v) ;;
  put_record_at i a'.

(** [st.session_state.assignments[i]['comments'].append(c)] *)
Definition store_comments_append (i : nat) (c : pyval) : M unit :=
  a <- record_at i ;;
  comments <- lift (getitem a "comments") ;;
  comments' <- lift (append comments c) ;;
  a' <- lift (setitem a "comments" comments') ;;
  put_record_at i a'.

Definition comment_entry (u : update_form) (now : datetime) : pyval :=
  PDict [("date", PStr (strftime_Ymd_HM now)); ("comment", PStr (comment u))]%string.

(** The body of the loop for the index [i] at which the ids agree
    (lines 312-322). *)
Definition apply_update (u : update_form) (now : datetime) (i : nat) : M unit :=
  store_setitem i "status" (PStr (new_status u)) ;;
  store_setitem i "progress_percentage" (PInt (new_progress u)) ;;
  store_setitem i "actual_hours" (PInt (actual_hours u)) ;;
  if str_truthy (comment u) then
    a <- record_at i ;;
    has_comments <- lift (contains "comments" a) ;;
    (if negb has_comments then store_setitem i "comments" (PList []) else ret tt) ;;
    store_comments_append i (comment_entry u now)
  else ret tt.

(** [for i, a in enumerate(st.session_state.assignments): if a['id'] ==
    assignment['id']: ...; break] over the items still to visit. *)
Fixpoint update_loop (u : update_form) (now : datetime) (i : nat) (items : list pyval)
  : M unit :=
  match items with
  | [] => ret tt
  | a :: rest =>
      id <- lift (getitem a "id") ;;
      if eq id (target_id u) then apply_update u now i
      else update_loop u now (S i) rest
  end.

(** The [if st.form_submit_button("Update Assignment"):] branch,
    lines 308-326. *)
Definition update_assignment (u : update_form) (now : datetime) : M feedback :=
  store <- get_assignments ;;
  items <- lift (iter store) ;;
  update_loop u now 0 items ;;
  ret (st_success "Assignment updated successfully!"%string).

(** *** Export and import (lines 444-472) *)

(** The text layer is the [json] module's: a document is represented by the
    value it denotes, so that [json_load (json_dumps v) = Ok v]. *)
Definition json_dumps (v : pyval) : uploaded := Json v.

Definition json_load (file : uploaded) : res pyval :=
  match file with
  | Json doc => Ok doc
  | NotJson => Raise JSONDecodeError
  end.

(** The [if st.sidebar.button("Export Data"):] branch, lines 448-461. *)
Definition export_data (now : datetime) : M feedback :=
  store <- get_assignments ;;
  if truthy store then
    let export_data :=
      PDict [("assignments", store); ("export_date", PStr (isoformat now))]%string in
    ret (st_download_button (json_dumps export_data)
           ("ngc_assignments_" ++ strftime_compact now ++ ".json")%string)
  else
    ret (st_warning "No data to export"%string).

(** [max([a['id'] for a in st.session_state.assignments]) + 1
     if st.session_state.assignments else 1] *)
Definition next_counter : M Z :=
  store <- get_assignments ;;
  if truthy store then
    items <- lift (iter store) ;;
    ids <- lift (res_map_list (fun a => getitem a "id") items) ;;
    largest <- lift (max ids) ;;
    lift (add_int largest 1)
  else ret 1.

(** The [if uploaded_file is not None:] branch, lines 464-472.  ([st.rerun]
    ends the script run after the success message; it is not an
    [Exception] and the handler does not catch it.) *)
Definition import_data (uploaded_file : uploaded) : M feedback :=
  try_except
    (import_data <- lift (json_load uploaded_file) ;;
     records <- lift (getitem import_data "assignments") ;;
     set_assignments records ;;
     counter <- next_counter ;;
     set_counter counter ;;
     ret (st_success "Data imported successfully!"%string))
    (fun e => ret (st_error_with "Import failed: "%string e)).

(** *** The record frame: [pd.DataFrame(st.session_state.assignments)] *)

(** A frame built from a list of dicts has one row per dict and a column
    for every key that occurs; a row without the key holds NaN there.  For
    anything but a list of dicts pandas gives no record frame, which is
    modelled as an exception. *)
Record DataFrame : Type :=
  { columns : list string;
    rows : list (list (string * pyval)) }.

Definition has_column (col : string) (cols : list string) : bool :=
  existsb (fun c => (c =? col)%string) cols.

Definition add_columns (cols : list string) (row : list (string * pyval)) : list string :=
  fold_left (fun acc kv => if has_column (fst kv) acc then acc else acc ++ [fst kv])
    row cols.

Definition as_row (a : pyval) : res (list (string * pyval)) :=
  match a with
  | PDict d => Ok d
  | _ => Raise TypeError
  end.

Definition pd_DataFrame (store : pyval) : res DataFrame :=
  match store with
  | PList items =>
      res_bind (res_map_list as_row items) (fun rs =>
      Ok {| columns := fold_left add_columns rs []; rows := rs |})
  | _ => Raise ValueError
  end.

(** [df[col]]: the cells of a column, [None] for NaN. *)
Definition column (df : DataFrame) (col : string) : res (list (option pyval)) :=
  if has_column col (columns df) then Ok (map (dict_get col) (rows df))
  else Raise (KeyError col).

(** [df[mask]]: the rows whose mask entry is [True], in order. *)
Fixpoint boolean_index {A} (mask : list bool) (rs : list A) : list A :=
  match mask, rs with
  | b :: mask', r :: rs' => if b then r :: boolean_index mask' rs' else boolean_index mask' rs'
  | _, _ => []
  end.

(** [df[df[col] == value]]; NaN equals nothing. *)
Definition where_eq (df : DataFrame) (col value : string) : res DataFrame :=
  res_bind (column df col) (fun series =>
  let mask := map (fun c => match c with
                            | Some v => eq v (PStr value)
                            | None => false
                            end) series in
  Ok {| columns := columns df; rows := boolean_index mask (rows df) |}).

(** *** Manage Assignments: the filters (lines 249-274) *)

Inductive listing : Type :=
| NothingToShow (msg : string)                       (* st.info and return *)
| Expanders (shown : list (list (string * pyval))).  (* one per row of df *)

Definition filter_by (selected col : string) (df : DataFrame) : res DataFrame :=
  if negb (selected =? "All")%string then where_eq df col selected else Ok df.

Definition manage_assignments (filter_engineer filter_status filter_priority : string)
    (s : session_state) : res listing :=
  if negb (truthy (assignments s)) then
    Ok (NothingToShow "No assignments to manage. Create some assignments first!"%string)
  else
    res_bind (pd_DataFrame (assignments s)) (fun df =>
    res_bind (filter_by filter_engineer "assigned_to" df) (fun df =>
    res_bind (filter_by filter_status "status" df) (fun df =>
    res_bind (filter_by filter_priority "priority" df) (fun df =>
    Ok (Expanders (rows df)))))).

Definition shown_records (l : listing) : list pyval :=
  match l with
  | NothingToShow _ => []
  | Expanders shown => map PDict shown
  end.

(** *** Dashboard: the overdue metric (lines 181-183) *)

(** [stamp < now] for one cell of a datetime series; NaT ([None]) is
    before nothing. *)
Definition stamp_before (now : datetime) (stamp : option datetime) : bool :=
  match stamp with
  | Some t => datetime_ltb t now
  | None => false
  end.

Section Dashboard.

(** [pd.to_datetime] on one cell: a timestamp, NaT ([None]), or an
    exception for a value it cannot read. *)
Variable to_datetime : pyval -> res (option datetime).

Definition series_to_datetime (series : list (option pyval))
  : res (list (option datetime)) :=
  res_map_list (fun c => match c with
                         | Some v => to_datetime v
                         | None => Ok None
                         end) series.

(** [len(df[pd.to_datetime(df['due_date']) < datetime.now()])] *)
Definition overdue (df : DataFrame) (now : datetime) : res nat :=
  res_bind (column df "due_date") (fun series =>
  res_bind (series_to_datetime series) (fun stamps =>
  let mask := map (stamp_before now) stamps in
  Ok (length (boolean_index mask (rows df))))).

End Dashboard.

(** How pandas reads the [%Y-%m-%d] strings that [create_assignment]
    stores: midnight of that day.  [None] and NaN give NaT. *)
Definition to_datetime_Ymd (v : pyval) : res (option datetime) :=
  match v with
  | PStr s =>
      match parse_Ymd s with
      | Some d => Ok (Some (midnight d))
      | None => Raise ValueError
      end
  | PNone => Ok None
  | _ => Raise TypeError
  end.

End App.

(** ** Vocabulary of the properties *)

Module Spec.
Import Py Clock Session App.

(** The records of the store (none when the store is not a list). *)
Definition store_records (s : session_state) : list pyval :=
  match assignments s with
  | PList items => items
  | _ => []
  end.

(** A handler reports a failure: it shows an error or lets an exception out. *)
Definition reports_failure (r : res feedback * session_state) : Prop :=
  match fst r with
  | Ok fb => is_error fb = true
  | Raise _ => True
  end.

(** Every record carries an id and none of them equals [target]. *)
Definition id_absent (target : pyval) (items : list pyval) : bool :=
  forallb (fun a => match getitem a "id" with
                    | Ok v => negb (eq v target)
                    | Raise _ => false
                    end) items.

(** The position the update loop stops at: the first record whose id equals
    [target]; an exception when a record before it has no id to read. *)
Fixpoint first_match (target : pyval) (items : list pyval) : res (option nat) :=
  match items with
  | [] => Ok None
  | a :: rest =>
      res_bind (getitem a "id") (fun v =>
      if eq v target then Ok (Some O)
      else res_bind (first_match target rest) (fun r => Ok (option_map S r)))
  end.

(** The three fields every update writes. *)
Definition write_fields (u : update_form) (d : list (string * pyval))
  : list (string * pyval) :=
  dict_set "actual_hours" (PInt (actual_hours u))
    (dict_set "progress_percentage" (PInt (new_progress u))
       (dict_set "status" (PStr (new_status u)) d)).

(** The matched record after the loop body, and how the body ended. *)
Definition updated_record (u : update_form) (now : datetime)
    (d : list (string * pyval)) : list (string * pyval) * res unit :=
  let d3 := write_fields u d in
  if str_truthy (comment u) then
    match dict_get "comments" d3 with
    | None => (dict_set "comments" (PList [comment_entry u now]) d3, Ok tt)
    | Some (PList cs) => (dict_set "comments" (PList (cs ++ [comment_entry u now])) d3, Ok tt)
    | Some _ => (d3, Raise AttributeError)
    end
  else (d3, Ok tt).

(** What the submitted update form does to a store that is a list. *)
Definition update_outcome (u : update_form) (now : datetime) (items : list pyval)
  : res unit * list pyval :=
  match first_match (target_id u) items with
  | Raise e => (Raise e, items)
  | Ok None => (Ok tt, items)
  | Ok (Some j) =>
      match items !! j with
      | Some (PDict d) =>
          (snd (updated_record u now d),
           <[j := PDict (fst (updated_record u now d))]> items)
      | _ => (Raise TypeError, items)
      end
  end.

(** The keys the update form can write. *)
Definition written_keys : list string :=
  ["status"; "progress_percentage"; "actual_hours"; "comments"]%string.

(** The form does not supply the field [k] of the record [a]: the widgets
    are pre-filled with the record's values, so a field is supplied only when
    the submitted value differs from the stored one, and a comment only when
    it is not empty. *)
Definition not_supplied (u : update_form) (a : pyval) (k : string) : Prop :=
  (k = "status"%string -> getitem a k = Ok (PStr (new_status u))) /\
  (k = "progress_percentage"%string -> getitem a k = Ok (PInt (new_progress u))) /\
  (k = "actual_hours"%string -> getitem a k = Ok (PInt (actual_hours u))) /\
  (k = "comments"%string -> comment u = ""%string).

(** The value of [max([a['id'] for a in store]) + 1 if store else 1]. *)
Definition counter_after (store : pyval) : res Z :=
  if truthy store then
    res_bind (iter store) (fun items =>
    res_bind (res_map_list (fun a => getitem a "id") items) (fun ids =>
    res_bind (max ids) (fun largest => add_int largest 1)))
  else Ok 1.

(** The id of a record as a number ([True] counts as 1, as in Python). *)
Definition record_id (a : pyval) : option Z :=
  match getitem a "id" with
  | Ok v => as_int v
  | Raise _ => None
  end.

(** The ids of a list of records, when every record has a number as id. *)
Fixpoint ids_of (items : list pyval) : option (list Z) :=
  match items with
  | [] => Some []
  | a :: rest =>
      match record_id a, ids_of rest with
      | Some z, Some zs => Some (z :: zs)
      | _, _ => None
      end
  end.

Definition store_ids (s : session_state) : option (list Z) :=
  match assignments s with
  | PList items => ids_of items
  | _ => None
  end.

(** [progress_percentage] is an integer between 0 and 100. *)
Definition progress_in_range (a : pyval) : bool :=
  match getitem a "progress_percentage" with
  | Ok (PInt p) => (0 <=? p) && (p <=? 100)
  | _ => false
  end.

Definition all_in_range (s : session_state) : bool :=
  forallb progress_in_range (store_records s).

(** Exporting [s] gives a document, and importing that document into [s0]
    succeeds and installs the store of [s]. *)
Definition round_trip (now : datetime) (s s0 : session_state) : Prop :=
  exists file name c,
    export_data now s = (Ok (st_download_button file name), s) /\
    import_data file s0
    = (Ok (st_success "Data imported successfully!"),
       {| assignments := assignments s; assignment_counter := c |}).

(** The record [a] holds the string [value] under [col]. *)
Definition cell_is (col value : string) (a : pyval) : bool :=
  match getitem a col with
  | Ok v => eq v (PStr value)
  | Raise _ => false
  end.

(** The record passes one filter: nothing is selected ("All"), or the
    record holds the selected value. *)
Definition passes (selected col : string) (a : pyval) : bool :=
  (selected =? "All")%string || cell_is col selected a.

Definition matches_filters (engineer status priority : string) (a : pyval) : bool :=
  passes engineer "assigned_to" a && passes status "status" a
  && passes priority "priority" a.

Definition has_key (k : string) (a : pyval) : bool :=
  match getitem a k with
  | Ok _ => true
  | Raise _ => false
  end.

(** A record that can be listed: a dict with the three filtered fields. *)
Definition listable (a : pyval) : bool :=
  has_key "assigned_to" a && has_key "status" a && has_key "priority" a.

Definition how_many {A} (p : A -> bool) (l : list A) : nat :=
  length (List.filter p l).

(** The due date of the record, as [to_datetime] reads it, is strictly
    before [now]. *)
Definition due_before (to_datetime : pyval -> res (option datetime))
    (now : datetime) (a : pyval) : bool :=
  match getitem a "due_date" with
  | Ok v =>
      match to_datetime v with
      | Ok (Some t) => datetime_ltb t now
      | _ => false
      end
  | Raise _ => false
  end.

(** The record is a dict with a due date that [to_datetime] can read. *)
Definition readable_due (to_datetime : pyval -> res (option datetime))
    (a : pyval) : Prop :=
  exists v t, getitem a "due_date" = Ok v /\ to_datetime v = Ok t.

(** [a'] is [a] with some status written over its own. *)
Definition restatused (a a' : pyval) : Prop :=
  exists st, setitem a "status" st = Ok a'.

(** A run of the create form, one submission after the other. *)
Definition creates (fs : list (create_form * datetime)) (s : session_state)
  : session_state :=
  fold_left (fun s fn => snd (create_assignment (fst fn) (snd fn) s)) fs s.

End Spec.

(** ** Sample sessions *)

Module Examples.
Import Py Clock Session App.
Local Open Scope string_scope.

Definition morning : datetime :=
  {| on_date := {| year := 2026; month := 3; day := 7 |};
     hour := 9; minute := 5; second := 0; microsecond := 0 |}.

Definition review_spec : create_form :=
  {| title := "Review Spec"; assigned_to := "Chief Engineer (Telecom)";
     priority := "High"; due_date := {| year := 2026; month := 4; day := 1 |};
     category := "Design Review"; estimated_hours := 8; status := "Not Started";
     description := "x"; deliverables := "" |}.

Definition relay_tests : create_form :=
  {| title := "Relay tests"; assigned_to := "Chief Engineer (Protection & Control)";
     priority := "Critical"; due_date := {| year := 2026; month := 3; day := 1 |};
     category := "Testing & Commissioning"; estimated_hours := 40;
     status := "Completed"; description := "Secondary injection"; deliverables := "Report" |}.

(** The session after creating [review_spec], then [relay_tests]. *)
Definition one_record : session_state :=
  Eval vm_compute in snd (create_assignment review_spec morning initial).

Definition two_records : session_state :=
  Eval vm_compute in snd (create_assignment relay_tests morning one_record).

(** An update of a record that is not in [two_records]. *)
Definition update_of_7 : update_form :=
  {| target_id := PInt 7; new_status := "Completed"; new_progress := 100;
     actual_hours := 3; comment := "" |}.

(** The form of record 1 submitted with only the slider moved. *)
Definition progress_only : update_form :=
  {| target_id := PInt 1; new_status := "Not Started"; new_progress := 40;
     actual_hours := 0; comment := "" |}.

Definition with_comment : update_form :=
  {| target_id := PInt 1; new_status := "In Progress"; new_progress := 40;
     actual_hours := 2; comment := "started" |}.

(** A record with the id 1, and an uploaded document in which two such
    records share that id. *)
Definition twin_fields (name : string) : list (string * pyval) :=
  [("id", PInt 1); ("title", PStr name); ("status", PStr "Not Started");
   ("progress_percentage", PInt 0); ("actual_hours", PInt 0)].

Definition twin (name : string) : pyval := PDict (twin_fields name).

Definition twins_document : pyval :=
  PDict [("assignments", PList [twin "first"; twin "second"])].

Definition twins : session_state :=
  Eval vm_compute in snd (import_data (Json twins_document) initial).

(** An uploaded document whose record has no id. *)
Definition no_id_document : pyval :=
  PDict [("assignments", PList [PDict [("title", PStr "x")]])].

(** The session after uploading [no_id_document] into [one_record]. *)
Definition after_no_id : session_state :=
  Eval vm_compute in snd (import_data (Json no_id_document) one_record).


(** The record with its status set to "In Progress". *)
Definition restatus_open (a : pyval) : pyval :=
  match setitem a "status" (PStr "In Progress") with
  | Ok a' => a'
  | Raise _ => a
  end.

(** A second task that has not started. *)
Definition cable_schedule : create_form :=
  {| title := "Cable schedule"; assigned_to := "Chief Engineer (Substation Design)";
     priority := "Low"; due_date := {| year := 2026; month := 5; day := 15 |};
     category := "Documentation"; estimated_hours := 16; status := "Not Started";
     description := "Revise"; deliverables := "" |}.

Definition mark_done : update_form :=
  {| target_id := PInt 1; new_status := "Completed"; new_progress := 100;
     actual_hours := 0; comment := "" |}.


(** An uploaded document with a progress of 150. *)
Definition overshoot_document : pyval :=
  PDict [("assignments",
          PList [PDict [("id", PInt 1); ("progress_percentage", PInt 150)]])].

End Examples.

(** * Properties *)

Import Py Clock Session App Spec Examples.

(** ** Dicts *)

Lemma dict_get_set_eq k v d : dict_get k (dict_set k v d) = Some v.
Proof.
  induction d as [|[k' v'] d IH]; simpl.
  - now rewrite String.eqb_refl.
  - destruct (String.eqb_spec k' k) as [->|Hne]; simpl.
    + now rewrite String.eqb_refl.
    + destruct (String.eqb_spec k' k); [contradiction | exact IH].
Qed.

Lemma dict_get_set_ne k k' v d : k <> k' -> dict_get k' (dict_set k v d) = dict_get k' d.
Proof.
  intros Hne. induction d as [|[k0 v0] d IH]; simpl.
  - destruct (String.eqb_spec k k'); [contradiction | reflexivity].
  - destruct (String.eqb_spec k0 k) as [->|Hk]; simpl.
    + destruct (String.eqb_spec k k'); [contradiction | reflexivity].
    + destruct (String.eqb_spec k0 k'); [reflexivity | exact IH].
Qed.

Lemma dict_set_set k v w d : dict_set k w (dict_set k v d) = dict_set k w d.
Proof.
  induction d as [|[k' v'] d IH]; simpl.
  - now rewrite String.eqb_refl.
  - destruct (String.eqb_spec k' k) as [->|Hk]; simpl.
    + now rewrite String.eqb_refl.
    + destruct (String.eqb_spec k' k); [contradiction | now rewrite IH].
Qed.

Lemma dict_set_same k v d : dict_get k d = Some v -> dict_set k v d = d.
Proof.
  induction d as [|[k' v'] d IH]; simpl; [discriminate|].
  destruct (String.eqb_spec k' k) as [->|Hk]; intros H.
  - now inversion H.
  - now rewrite IH.
Qed.

Lemma getitem_set_ne d k k' v :
  k <> k' -> getitem (PDict (dict_set k v d)) k' = getitem (PDict d) k'.
Proof. intros H. simpl. now rewrite dict_get_set_ne. Qed.

(** ** The session monad *)

Lemma bind_ok {A B} (m : M A) (k : A -> M B) s a s' :
  m s = (Ok a, s') -> Session.bind m k s = k a s'.
Proof. intros H. unfold Session.bind. now rewrite H. Qed.

Lemma bind_raise {A B} (m : M A) (k : A -> M B) s e s' :
  m s = (Raise e, s') -> Session.bind m k s = (Raise e, s').
Proof. intros H. unfold Session.bind. now rewrite H. Qed.

Create HintDb session discriminated.
#[local] Hint Unfold Session.bind Session.ret Session.lift Session.try_except
  get_assignments set_assignments get_counter set_counter
  record_at put_record_at store_setitem store_comments_append : session.

(** Runs the straight-line part of a handler. *)
Ltac run_session := repeat (progress (autounfold with session; simpl)).

(** ** The update loop *)

Section UpdateLoop.
Variables (u : update_form) (now : datetime).

Lemma record_at_spec i items c a :
  items !! i = Some a ->
  record_at i {| assignments := PList items; assignment_counter := c |}
  = (Ok a, {| assignments := PList items; assignment_counter := c |}).
Proof. intros H. unfold record_at, Session.bind, get_assignments; simpl. now rewrite H. Qed.

Lemma store_setitem_spec i k v items c d :
  items !! i = Some (PDict d) ->
  store_setitem i k v {| assignments := PList items; assignment_counter := c |}
  = (Ok tt, {| assignments := PList (<[i := PDict (dict_set k v d)]> items);
               assignment_counter := c |}).
Proof.
  intros H. unfold store_setitem.
  erewrite bind_ok by (apply record_at_spec; exact H).
  reflexivity.
Qed.

Lemma lookup_insert_here (items : list pyval) i a b :
  items !! i = Some a -> <[i := b]> items !! i = Some b.
Proof. intros H. apply list_lookup_insert_eq. now apply lookup_lt_Some in H. Qed.

Lemma apply_update_spec i items c d :
  items !! i = Some (PDict d) ->
  apply_update u now i {| assignments := PList items; assignment_counter := c |}
  = (snd (updated_record u now d),
     {| assignments := PList (<[i := PDict (fst (updated_record u now d))]> items);
        assignment_counter := c |}).
Proof.
  intros H. unfold apply_update, updated_record, write_fields.
  erewrite bind_ok by (apply store_setitem_spec; exact H).
  erewrite bind_ok by (apply store_setitem_spec; eapply lookup_insert_here; exact H).
  rewrite list_insert_insert_eq.
  erewrite bind_ok by (apply store_setitem_spec; eapply lookup_insert_here; exact H).
  rewrite list_insert_insert_eq.
  set (d3 := dict_set "actual_hours" _ _).
  destruct (str_truthy (comment u)); [|reflexivity].
  erewrite bind_ok by (apply record_at_spec; eapply lookup_insert_here; exact H).
  unfold Session.bind at 1, lift at 1. simpl contains.
  destruct (dict_get "comments" d3) as [cs|] eqn:Hc; simpl negb; cbv iota.
  - unfold Session.bind at 1, ret at 1.
    unfold store_comments_append.
    erewrite bind_ok by (apply record_at_spec; eapply lookup_insert_here; exact H).
    unfold Session.bind at 1, lift at 1. simpl getitem. rewrite Hc.
    destruct cs; try reflexivity.
    run_session. now rewrite list_insert_insert_eq.
  - erewrite bind_ok by (apply store_setitem_spec; eapply lookup_insert_here; exact H).
    rewrite list_insert_insert_eq.
    unfold store_comments_append.
    erewrite bind_ok by (apply record_at_spec; eapply lookup_insert_here; exact H).
    unfold Session.bind at 1, lift at 1. simpl getitem.
    rewrite dict_get_set_eq. run_session.
    now rewrite list_insert_insert_eq, dict_set_set.
Qed.

Lemma update_loop_spec items i s :
  update_loop u now i items s =
  match first_match (target_id u) items with
  | Raise e => (Raise e, s)
  | Ok None => (Ok tt, s)
  | Ok (Some j) => apply_update u now (i + j) s
  end.
Proof.
  revert i. induction items as [|a rest IH]; intros i; simpl; [reflexivity|].
  unfold Session.bind at 1, lift at 1.
  destruct (getitem a "id") as [v|e]; simpl; [|reflexivity].
  destruct (eq v (target_id u)).
  - now rewrite Nat.add_0_r.
  - rewrite IH. destruct (first_match (target_id u) rest) as [[j|]|e]; simpl; try reflexivity.
    now rewrite Nat.add_succ_r.
Qed.

End UpdateLoop.

Lemma id_absent_first_match target items :
  id_absent target items = true -> first_match target items = Ok None.
Proof.
  induction items as [|a rest IH]; simpl; [reflexivity|].
  destruct (getitem a "id") as [v|e]; simpl; [|discriminate].
  destruct (eq v target); simpl; [discriminate|].
  intros H. now rewrite IH.
Qed.

Lemma first_match_middle target pre d post v :
  id_absent target pre = true ->
  dict_get "id" d = Some v -> eq v target = true ->
  first_match target (pre ++ PDict d :: post) = Ok (Some (length pre)).
Proof.
  intros Hpre Hd Hv. induction pre as [|a pre IH]; simpl in *.
  - rewrite Hd. simpl. now rewrite Hv.
  - destruct (getitem a "id") as [w|e]; simpl in *; [|discriminate].
    destruct (eq w target); simpl in *; [discriminate|].
    now rewrite IH.
Qed.

Lemma first_match_Some target items j :
  first_match target items = Ok (Some j) ->
  exists d v, items !! j = Some (PDict d) /\ dict_get "id" d = Some v /\
              eq v target = true /\ id_absent target (take j items) = true.
Proof.
  revert j. induction items as [|a rest IH]; intros j; simpl; [discriminate|].
  destruct (getitem a "id") as [v|e] eqn:Ha; simpl; [|discriminate].
  destruct (eq v target) eqn:Hv.
  - intros [= <-]. destruct a; try discriminate. simpl in Ha.
    destruct (dict_get "id" entries) eqn:Hd; [|discriminate].
    injection Ha as ->. now exists entries, v.
  - destruct (first_match target rest) as [[j'|]|e]; simpl; try discriminate.
    intros [= <-]. destruct (IH j' eq_refl) as (d & w & H1 & H2 & H3 & H4).
    exists d, w. simpl. rewrite Ha. simpl. rewrite Hv. simpl. auto.
Qed.

Lemma update_assignment_spec u now s items :
  assignments s = PList items ->
  update_assignment u now s
  = (res_bind (fst (update_outcome u now items))
       (fun _ => Ok (st_success "Assignment updated successfully!")),
     {| assignments := PList (snd (update_outcome u now items));
        assignment_counter := assignment_counter s |}).
Proof.
  destruct s as [store c]; simpl; intros ->.
  unfold update_assignment, update_outcome.
  unfold Session.bind at 1, get_assignments at 1.
  unfold Session.bind at 1, lift at 1. simpl iter.
  unfold Session.bind at 1. rewrite update_loop_spec.
  destruct (first_match (target_id u) items) as [[j|]|e] eqn:Hfm; try reflexivity.
  destruct (first_match_Some _ _ _ Hfm) as (d & v & Hj & _).
  rewrite Hj. simpl Nat.add. rewrite (apply_update_spec u now j items c d Hj).
  destruct (updated_record u now d) as [d' [[]|e]]; reflexivity.
Qed.

Lemma first_match_strings target (keys : list string) :
  first_match target (map PStr keys) = Ok None \/
  exists e, first_match target (map PStr keys) = Raise e.
Proof. destruct keys; simpl; eauto. Qed.

(** On a store that is not a list the update form changes nothing. *)
Lemma update_not_a_list u now s :
  (forall items, assignments s <> PList items) ->
  snd (update_assignment u now s) = s.
Proof.
  intros Hs. unfold update_assignment.
  unfold Session.bind at 1, get_assignments at 1.
  unfold Session.bind at 1, lift at 1.
  destruct (assignments s) as [| | |str|items|entries] eqn:Hstore; simpl iter;
    try reflexivity.
  - rewrite <- map_map with (f := fun c => String c EmptyString) (g := PStr).
    unfold Session.bind at 1. rewrite update_loop_spec.
    destruct (first_match_strings (target_id u)
                (map (fun c => String c EmptyString) (list_ascii_of_string str)))
      as [-> | [e ->]]; reflexivity.
  - now elim (Hs items).
  - rewrite <- map_map with (f := fst) (g := PStr).
    unfold Session.bind at 1. rewrite update_loop_spec.
    destruct (first_match_strings (target_id u) (map fst entries))
      as [-> | [e ->]]; reflexivity.
Qed.

(** ** Update: an id that is not in the store (C3) *)

(** C3 does not hold: the update form of an id that no record of
    [two_records] carries ends with the success message. *)
Lemma update_unknown_id_reports_success :
  id_absent (target_id update_of_7) (store_records two_records) = true /\
  ~ reports_failure (update_assignment update_of_7 morning two_records).
Proof. split; [reflexivity | vm_compute; discriminate]. Qed.

(** C3, as the code has it: when every record carries an id and none of them
    equals the id of the submitted form, the update raises nothing, shows its
    success message, and leaves the store and the counter as they were.  The
    handler has no error path for an unknown id. *)
Theorem update_absent_id_changes_nothing u now s items :
  assignments s = PList items ->
  id_absent (target_id u) items = true ->
  update_assignment u now s
  = (Ok (st_success "Assignment updated successfully!"), s).
Proof.
  intros Hs Habs. rewrite (update_assignment_spec u now s items Hs).
  unfold update_outcome. rewrite (id_absent_first_match _ _ Habs). simpl.
  destruct s as [store c]; simpl in *. now subst.
Qed.

Lemma update_absent_id_changes_nothing_witness :
  update_assignment update_of_7 morning two_records
  = (Ok (st_success "Assignment updated successfully!"), two_records).
Proof.
  apply (update_absent_id_changes_nothing update_of_7 morning two_records
           (store_records two_records)); reflexivity.
Defined.

(** ** Update: the first match only (C10) *)

(** C10: when the store is [pre ++ d :: post], no record of [pre] has the
    target id and [d] has it, the update rewrites [d] and nothing else: [pre]
    and [post] come out as they went in, whatever ids the records of [post]
    carry, the target id included. *)
Theorem update_stops_at_first_match u now s pre d post v :
  assignments s = PList (pre ++ PDict d :: post) ->
  id_absent (target_id u) pre = true ->
  dict_get "id" d = Some v ->
  eq v (target_id u) = true ->
  update_assignment u now s
  = (res_bind (snd (updated_record u now d))
       (fun _ => Ok (st_success "Assignment updated successfully!")),
     {| assignments := PList (pre ++ PDict (fst (updated_record u now d)) :: post);
        assignment_counter := assignment_counter s |}).
Proof.
  intros Hs Hpre Hd Hv. rewrite (update_assignment_spec u now s _ Hs).
  unfold update_outcome. rewrite (first_match_middle _ pre d post v Hpre Hd Hv).
  rewrite list_lookup_middle by reflexivity.
  simpl. do 3 f_equal.
  replace (length pre) with (length pre + 0)%nat by lia.
  now rewrite insert_app_r.
Qed.

Lemma update_stops_at_first_match_witness :
  assignments twins = PList [twin "first"; twin "second"] /\
  exists first',
    snd (update_assignment progress_only morning twins)
    = {| assignments := PList [PDict first'; twin "second"]; assignment_counter := 2 |} /\
    dict_get "progress_percentage" first' = Some (PInt 40).
Proof.
  split; [reflexivity|].
  eexists. split.
  - rewrite (update_stops_at_first_match progress_only morning twins []
               (twin_fields "first") [twin "second"] (PInt 1)); reflexivity.
  - reflexivity.
Defined.

(** ** Update: what a successful update leaves alone (C8) *)

Lemma dict_get_set k k' v d :
  dict_get k' (dict_set k v d) = if (k =? k')%string then Some v else dict_get k' d.
Proof.
  destruct (String.eqb_spec k k') as [->|Hne].
  - apply dict_get_set_eq.
  - now apply dict_get_set_ne.
Qed.

Lemma getitem_dict_Ok d k x : getitem (PDict d) k = Ok x -> dict_get k d = Some x.
Proof. simpl. destruct (dict_get k d); now intros [= ->]. Qed.

Lemma dict_get_getitem d d' k :
  dict_get k d' = dict_get k d -> getitem (PDict d') k = getitem (PDict d) k.
Proof. simpl. now intros ->. Qed.

Lemma write_fields_not_supplied u d k :
  not_supplied u (PDict d) k -> dict_get k (write_fields u d) = dict_get k d.
Proof.
  intros (Hst & Hpr & Hho & _). unfold write_fields. rewrite !dict_get_set.
  destruct (String.eqb_spec "actual_hours" k) as [<-|_].
  { symmetry. now apply getitem_dict_Ok, Hho. }
  destruct (String.eqb_spec "progress_percentage" k) as [<-|_].
  { symmetry. now apply getitem_dict_Ok, Hpr. }
  destruct (String.eqb_spec "status" k) as [<-|_]; [|reflexivity].
  symmetry. now apply getitem_dict_Ok, Hst.
Qed.

Lemma updated_record_not_supplied u now d k :
  snd (updated_record u now d) = Ok tt ->
  not_supplied u (PDict d) k ->
  dict_get k (fst (updated_record u now d)) = dict_get k d.
Proof.
  intros Hok Hk. pose proof (write_fields_not_supplied u d k Hk) as Hw.
  unfold updated_record in *.
  destruct (str_truthy (comment u)) eqn:Hc; [|exact Hw].
  assert (Hne : "comments"%string <> k).
  { intros <-. destruct Hk as (_ & _ & _ & Hk). rewrite (Hk eq_refl) in Hc. discriminate. }
  destruct (dict_get "comments" (write_fields u d)) as [[]|]; simpl in *;
    try discriminate; now rewrite dict_get_set_ne.
Qed.

Lemma not_written_not_supplied u a k : ~ In k written_keys -> not_supplied u a k.
Proof.
  intros Hk. unfold written_keys in Hk. simpl in Hk.
  repeat split; intros ->; exfalso; apply Hk; auto.
Qed.

(** C8: after an update that succeeded, the counter is what it was, the
    store has as many records as before, and for the record [a] at every
    position [j] and the record [a'] now at that position:
    - every key outside status, progress_percentage, actual_hours and comments
      (id, title, assigned_to, priority, category, description, deliverables,
      due_date, created_date, ...) reads as before;
    - every key the form does not supply reads as before, so a form that
      supplies only the progress leaves status, actual_hours and comments
      alone;
    - unless [j] is the position of the first record with the target id,
      [a'] is [a]. *)
Theorem update_changes_only_supplied_fields u now s fb s' :
  update_assignment u now s = (Ok fb, s') ->
  assignment_counter s' = assignment_counter s /\
  length (store_records s') = length (store_records s) /\
  forall j a, store_records s !! j = Some a ->
    exists a', store_records s' !! j = Some a' /\
      (forall k, ~ In k written_keys -> getitem a' k = getitem a k) /\
      (forall k, not_supplied u a k -> getitem a' k = getitem a k) /\
      (first_match (target_id u) (store_records s) <> Ok (Some j) -> a' = a).
Proof.
  intros Hrun.
  assert (Hsame : s' = s ->
            assignment_counter s' = assignment_counter s /\
            length (store_records s') = length (store_records s) /\
            forall j a, store_records s !! j = Some a ->
              exists a', store_records s' !! j = Some a' /\
                (forall k, ~ In k written_keys -> getitem a' k = getitem a k) /\
                (forall k, not_supplied u a k -> getitem a' k = getitem a k) /\
                (first_match (target_id u) (store_records s) <> Ok (Some j) -> a' = a)).
  { intros ->. repeat split. intros j a Hj. exists a. auto. }
  pose proof (update_not_a_list u now s) as Hnot. rewrite Hrun in Hnot.
  destruct (assignments s) as [| | | |items|] eqn:Hs;
    try (apply Hsame, Hnot; discriminate).
  clear Hnot Hsame.
  rewrite (update_assignment_spec u now s items Hs) in Hrun.
  injection Hrun as Hfb <-. unfold store_records. rewrite Hs. simpl.
  unfold update_outcome in *.
  destruct (first_match (target_id u) items) as [[j0|]|e] eqn:Hfm; simpl in *;
    try discriminate.
  - destruct (first_match_Some _ _ _ Hfm) as (d & v & Hj0 & _).
    rewrite Hj0 in *. simpl in *.
    destruct (snd (updated_record u now d)) as [[]|e] eqn:Hok; [|discriminate].
    repeat split; [apply length_insert|].
    intros j a Hj. destruct (Nat.eq_dec j0 j) as [<-|Hne].
    + rewrite Hj0 in Hj. injection Hj as <-.
      exists (PDict (fst (updated_record u now d))).
      split; [eapply lookup_insert_here; exact Hj0|].
      assert (Hframe : forall k, not_supplied u (PDict d) k ->
                getitem (PDict (fst (updated_record u now d))) k = getitem (PDict d) k).
      { intros k Hk. apply dict_get_getitem. now apply updated_record_not_supplied. }
      repeat split; [| exact Hframe | congruence].
      intros k Hk. apply Hframe. now apply not_written_not_supplied.
    + exists a. rewrite list_lookup_insert_ne by exact Hne. auto.
  - repeat split. intros j a Hj. exists a. auto.
Qed.

Lemma update_changes_only_supplied_fields_witness :
  (exists a',
     store_records (snd (update_assignment progress_only morning two_records)) !! O
     = Some a' /\
     getitem a' "status" = Ok (PStr "Not Started") /\
     getitem a' "actual_hours" = Ok (PInt 0) /\
     getitem a' "comments" = Ok (PList []) /\
     getitem a' "title" = Ok (PStr "Review Spec")) /\
  store_records (snd (update_assignment progress_only morning two_records)) !! 1%nat
  = Some (new_assignment relay_tests morning 2).
Proof.
  destruct (update_changes_only_supplied_fields progress_only morning two_records
              (st_success "Assignment updated successfully!")
              (snd (update_assignment progress_only morning two_records)) eq_refl)
    as (_ & _ & Hall).
  split.
  - destruct (Hall O (new_assignment review_spec morning 1) eq_refl)
      as (a' & Hj' & Hkeys & Hsupplied & _).
    assert (Hfree : forall k, k <> "progress_percentage"%string ->
              not_supplied progress_only (new_assignment review_spec morning 1) k).
    { intros k Hk. repeat split; intros ->; solve [reflexivity | now elim Hk]. }
    exists a'. split; [exact Hj'|].
    rewrite (Hkeys "title"%string) by (simpl; intuition discriminate).
    rewrite !Hsupplied by (apply Hfree; discriminate).
    repeat split.
  - destruct (Hall 1%nat (new_assignment relay_tests morning 2) eq_refl)
      as (a' & Hj' & _ & _ & Hother).
    rewrite Hj', Hother; [reflexivity | discriminate].
Defined.

(** ** Create: the required fields (C4) *)



Lemma create_rejected f now s :
  required_fields f = false ->
  create_assignment f now s
  = (Ok (st_error "❌ Please fill in all required fields marked with *"), s).
Proof. intros H. unfold create_assignment. now rewrite H. Qed.

Lemma create_accepted f now items c :
  required_fields f = true ->
  create_assignment f now {| assignments := PList items; assignment_counter := c |}
  = (Ok (st_success ("✅ Assignment '" ++ title f ++ "' created successfully!")%string),
     {| assignments := PList (items ++ [new_assignment f now c]);
        assignment_counter := c + 1 |}).
Proof. intros H. unfold create_assignment. now rewrite H. Qed.



(** ** Import: what a failed import leaves behind (C1) *)

Lemma next_counter_spec s : next_counter s = (counter_after (assignments s), s).
Proof.
  unfold next_counter, counter_after. run_session.
  destruct (truthy (assignments s)); [|reflexivity].
  destruct (iter (assignments s)) as [items|e]; simpl; [|reflexivity].
  destruct (res_map_list _ items) as [ids|e]; simpl; [|reflexivity].
  destruct (max ids) as [m|e]; simpl; reflexivity.
Qed.

(** The three ways the import handler ends. *)
Lemma import_data_spec file s :
  import_data file s =
  match res_bind (json_load file) (fun doc => getitem doc "assignments") with
  | Raise e => (Ok (st_error_with "Import failed: " e), s)
  | Ok records =>
      match counter_after records with
      | Raise e =>
          (Ok (st_error_with "Import failed: " e),
           {| assignments := records; assignment_counter := assignment_counter s |})
      | Ok c =>
          (Ok (st_success "Data imported successfully!"),
           {| assignments := records; assignment_counter := c |})
      end
  end.
Proof.
  unfold import_data, try_except.
  unfold Session.bind at 1, lift at 1.
  destruct (json_load file) as [doc|e]; simpl res_bind; [|reflexivity].
  unfold Session.bind at 1, lift at 1.
  destruct (getitem doc "assignments") as [records|e]; [|reflexivity].
  unfold Session.bind at 1, set_assignments at 1.
  unfold Session.bind at 1. rewrite next_counter_spec. simpl assignments.
  destruct (counter_after records) as [c|e]; reflexivity.
Qed.

(** A file that cannot be parsed, or whose document has no [assignments] to
    read, leaves the session as it was. *)
Lemma import_without_assignments file s e :
  res_bind (json_load file) (fun doc => getitem doc "assignments") = Raise e ->
  import_data file s = (Ok (st_error_with "Import failed: " e), s).
Proof. intros H. rewrite import_data_spec. now rewrite H. Qed.

Lemma import_failure_keeps_counter file s :
  reports_failure (import_data file s) ->
  assignment_counter (snd (import_data file s)) = assignment_counter s.
Proof.
  rewrite import_data_spec. unfold reports_failure.
  destruct (res_bind (json_load file) _) as [records|e]; simpl; [|reflexivity].
  destruct (counter_after records); simpl; [discriminate | reflexivity].
Qed.

(** C1 fails on the code: the handler installs the uploaded records (line
    467) before it reads their ids (line 468).  Uploading a document whose
    record has no id into a session with one record ends in the message
    "Import failed: 'id'", with the counter at its old value and the old
    record replaced by the uploaded one. *)
Theorem import_failure_replaces_store :
  import_data (Json no_id_document) one_record
  = (Ok (st_error_with "Import failed: " (KeyError "id")),
     {| assignments := PList [PDict [("title"%string, PStr "x")]];
        assignment_counter := assignment_counter one_record |}) /\
  reports_failure (import_data (Json no_id_document) one_record) /\
  assignments (snd (import_data (Json no_id_document) one_record))
  <> assignments one_record.
Proof.
  split; [reflexivity|]. split; [reflexivity|]. vm_compute. discriminate.
Qed.

(** ** The range of progress_percentage (C5) *)

(** C5 does not hold for import: a document with a progress of 150 is
    imported with success into a new session. *)
Lemma import_overshoot_accepted :
  all_in_range initial = true /\
  fst (import_data (Json overshoot_document) initial)
  = Ok (st_success "Data imported successfully!") /\
  all_in_range (snd (import_data (Json overshoot_document) initial)) = false.
Proof. repeat split. Qed.

Lemma create_keeps_or_appends f now s :
  snd (create_assignment f now s) = s \/
  exists items,
    assignments s = PList items /\
    snd (create_assignment f now s)
    = {| assignments := PList (items ++ [new_assignment f now (assignment_counter s)]);
         assignment_counter := assignment_counter s + 1 |}.
Proof.
  destruct (required_fields f) eqn:Hreq.
  - destruct s as [store c]. destruct store as [| | | |items|];
      try (left; unfold create_assignment; rewrite Hreq; reflexivity).
    right. exists items. split; [reflexivity|]. now rewrite create_accepted.
  - left. now rewrite create_rejected.
Qed.

Lemma forallb_insert {A} (p : A -> bool) (l : list A) j x :
  forallb p l = true -> p x = true -> forallb p (<[j := x]> l) = true.
Proof.
  revert j. induction l as [|y l IH]; intros j; simpl; [auto|].
  rewrite andb_true_iff. intros [Hy Hl] Hx.
  destruct j; simpl.
  - now rewrite Hx.
  - rewrite Hy. now apply IH.
Qed.

Lemma updated_record_progress u now d :
  dict_get "progress_percentage" (fst (updated_record u now d))
  = Some (PInt (new_progress u)).
Proof.
  assert (Hw : dict_get "progress_percentage" (write_fields u d)
               = Some (PInt (new_progress u))).
  { unfold write_fields. rewrite dict_get_set_ne by discriminate.
    apply dict_get_set_eq. }
  unfold updated_record. destruct (str_truthy (comment u)); [|exact Hw].
  destruct (dict_get "comments" (write_fields u d)) as [[]|]; simpl; try exact Hw;
    now rewrite dict_get_set_ne by discriminate.
Qed.

Lemma update_keeps_range u now s :
  0 <= new_progress u <= 100 ->
  all_in_range s = true ->
  all_in_range (snd (update_assignment u now s)) = true.
Proof.
  intros Hp Hs. destruct (assignments s) as [| | | |items|] eqn:Hstore;
    try (rewrite update_not_a_list; [exact Hs | rewrite Hstore; discriminate]).
  rewrite (update_assignment_spec u now s items Hstore).
  unfold all_in_range, store_records in *. rewrite Hstore in Hs. simpl.
  unfold update_outcome.
  destruct (first_match (target_id u) items) as [[j|]|e]; simpl; try exact Hs.
  destruct (items !! j) as [[| | | | |d]|]; simpl; try exact Hs.
  apply forallb_insert; [exact Hs|].
  unfold progress_in_range. simpl. rewrite updated_record_progress.
  apply andb_true_iff. split; apply Z.leb_le; lia.
Qed.

Lemma create_keeps_range f now s :
  all_in_range s = true -> all_in_range (snd (create_assignment f now s)) = true.
Proof.
  intros Hs. destruct (create_keeps_or_appends f now s) as [-> | (items & Hstore & ->)];
    [exact Hs|].
  unfold all_in_range, store_records in *. rewrite Hstore in Hs. simpl.
  rewrite forallb_app, Hs. reflexivity.
Qed.

(** C5, as the code has it.  Creating a record keeps every progress within
    0..100, and so does an update, whose progress comes from a slider over
    0..100.  The import handler checks no range: a successful import installs
    the value under the document's [assignments] key as it is, so the records
    are within range afterwards exactly when the document's records are. *)
Theorem progress_range_preserved s :
  all_in_range s = true ->
  (forall f now, all_in_range (snd (create_assignment f now s)) = true) /\
  (forall u now, 0 <= new_progress u <= 100 ->
                 all_in_range (snd (update_assignment u now s)) = true) /\
  (forall doc s',
     import_data (Json doc) s = (Ok (st_success "Data imported successfully!"), s') ->
     getitem doc "assignments" = Ok (assignments s')).
Proof.
  intros Hs. split; [|split].
  - intros f now. now apply create_keeps_range.
  - intros u now Hp. now apply update_keeps_range.
  - intros doc s'. rewrite import_data_spec. simpl.
    destruct (getitem doc "assignments") as [records|e]; [|discriminate].
    destruct (counter_after records); [|discriminate].
    now intros [= <-].
Qed.

Lemma progress_range_preserved_witness :
  all_in_range (snd (create_assignment relay_tests morning one_record)) = true /\
  all_in_range (snd (update_assignment with_comment morning one_record)) = true /\
  getitem twins_document "assignments" = Ok (assignments twins).
Proof.
  destruct (progress_range_preserved one_record eq_refl) as (Hcreate & Hupdate & Himport).
  split; [apply Hcreate|]. split.
  - apply Hupdate. simpl. lia.
  - destruct (progress_range_preserved initial eq_refl) as (_ & _ & Himport0).
    apply Himport0. reflexivity.
Defined.

(** ** Ids and the counter *)

Lemma ids_of_getitem items zs :
  ids_of items = Some zs ->
  exists vs, res_map_list (fun a => getitem a "id") items = Ok vs /\
             Forall2 (fun v z => as_int v = Some z) vs zs.
Proof.
  revert zs. induction items as [|a rest IH]; intros zs; simpl.
  - intros [= <-]. exists []. split; [reflexivity | constructor].
  - unfold record_id. destruct (getitem a "id") as [v|e]; [|discriminate].
    destruct (as_int v) as [z|] eqn:Hv; [|discriminate].
    destruct (ids_of rest) as [zs'|]; [|discriminate].
    intros [= <-]. destruct (IH zs' eq_refl) as (vs & -> & Hvs).
    exists (v :: vs). split; [reflexivity | now constructor].
Qed.

Lemma gt_numbers a b x y :
  as_int a = Some x -> as_int b = Some y -> gt a b = Ok (y <? x).
Proof.
  destruct a, b; simpl; try discriminate; intros [= <-] [= <-]; reflexivity.
Qed.

Lemma max_from_numbers vs : forall best b zs,
  as_int best = Some b ->
  Forall2 (fun v z => as_int v = Some z) vs zs ->
  exists m, max_from best vs = Ok m /\ as_int m = Some (fold_left Z.max zs b).
Proof.
  induction vs as [|v vs IH]; intros best b zs Hb Hvs; inversion Hvs; subst; simpl.
  - now exists best.
  - rewrite (gt_numbers v best y b) by assumption. simpl.
    destruct (Z.ltb_spec b y) as [Hlt|Hge].
    + rewrite Z.max_r by lia. now apply IH.
    + rewrite Z.max_l by lia. now apply IH.
Qed.

Lemma fold_left_max_spec zs : forall b,
  (fold_left Z.max zs b = b \/ In (fold_left Z.max zs b) zs) /\
  b <= fold_left Z.max zs b /\
  Forall (fun z => z <= fold_left Z.max zs b) zs.
Proof.
  induction zs as [|z zs IH]; intros b; simpl.
  - repeat split; [now left | lia | constructor].
  - destruct (IH (Z.max b z)) as (Hin & Hle & Hall). repeat split.
    + destruct Hin as [Heq | Hin]; [|now right; right].
      rewrite Heq. destruct (Z.max_spec b z) as [[_ ->] | [_ ->]]; auto.
    + lia.
    + constructor; [lia | exact Hall].
Qed.

Lemma counter_after_ids items zs :
  items <> [] ->
  ids_of items = Some zs ->
  exists m, counter_after (PList items) = Ok (m + 1) /\
            In m zs /\ Forall (fun z => z <= m) zs.
Proof.
  intros Hne Hids. destruct (ids_of_getitem items zs Hids) as (vs & Hvs & Hall).
  assert (Htruthy : truthy (PList items) = true)
    by (destruct items; [contradiction | reflexivity]).
  unfold counter_after. rewrite Htruthy. cbn [iter res_bind]. rewrite Hvs. cbn [res_bind].
  destruct Hall as [|v z vs' zs' Hv Hrest].
  { destruct items as [|a rest]; [contradiction|]. simpl in Hvs.
    destruct (getitem a "id"); [|discriminate].
    destruct (res_map_list _ rest); discriminate. }
  destruct (max_from_numbers vs' v z zs' Hv Hrest) as (m & Hm & Hval).
  simpl max. rewrite Hm. simpl. unfold add_int. rewrite Hval.
  exists (fold_left Z.max zs' z). split; [reflexivity|].
  destruct (fold_left_max_spec zs' z) as (Hin & Hle & Hbound).
  split.
  - destruct Hin as [-> | Hin]; [now left | now right].
  - constructor; assumption.
Qed.

(** ** Export, then import (C2) *)

(** C2 does not hold for every store: the empty store of a new session
    exports no document at all, and the document exported from a store whose
    record has no id fails to import. *)
Lemma no_round_trip_without_ids :
  ~ round_trip morning initial initial /\
  ~ round_trip morning after_no_id initial.
Proof.
  split; intros (file & name & c & Hexport & Himport).
  - vm_compute in Hexport. discriminate.
  - vm_compute in Hexport. injection Hexport as <- _.
    vm_compute in Himport. discriminate.
Qed.

(** C2, as the code has it.  For a store that holds at least one record and
    whose records all carry an integer id, the export button yields a document,
    and importing that document (into any session) succeeds, installs the very
    same store - same records, ids, comments and order - and sets the counter
    to the largest id plus one.  With an empty store the export button only
    warns that there is nothing to export. *)
Theorem export_import_round_trip now s s0 items zs :
  assignments s = PList items ->
  items <> [] ->
  ids_of items = Some zs ->
  exists file name m,
    export_data now s = (Ok (st_download_button file name), s) /\
    import_data file s0
    = (Ok (st_success "Data imported successfully!"),
       {| assignments := assignments s; assignment_counter := m + 1 |}) /\
    In m zs /\ Forall (fun z => z <= m) zs.
Proof.
  intros Hs Hne Hids.
  destruct (counter_after_ids items zs Hne Hids) as (m & Hm & Hin & Hall).
  eexists _, _, m. split; [|split; [|split; assumption]].
  - unfold export_data. unfold Session.bind, get_assignments. rewrite Hs.
    destruct items; [contradiction|]. reflexivity.
  - rewrite import_data_spec. simpl. now rewrite Hm, Hs.
Qed.

Lemma export_import_round_trip_witness :
  exists file name,
    export_data morning two_records = (Ok (st_download_button file name), two_records) /\
    import_data file initial
    = (Ok (st_success "Data imported successfully!"), two_records).
Proof.
  destruct (export_import_round_trip morning two_records initial
              (store_records two_records) [1; 2] eq_refl)
    as (file & name & m & Hexport & Himport & Hin & Hall).
  - discriminate.
  - reflexivity.
  - exists file, name. split; [exact Hexport|]. rewrite Himport.
    assert (m = 2) as ->.
    { inversion Hall as [|? ? _ Hall']; subst. inversion Hall' as [|? ? H2 _]; subst.
      simpl in Hin. lia. }
    reflexivity.
Defined.

(** ** Where the counter is above every id *)

(** A new session has no ids. *)
Lemma initial_ids_below_counter :
  store_ids initial = Some [] /\ assignment_counter initial = 1.
Proof. split; reflexivity. Qed.

(** A successful import of records with integer ids leaves the counter
    above every id of the store. *)
Lemma import_ids_below_counter doc s s' zs :
  import_data (Json doc) s = (Ok (st_success "Data imported successfully!"), s') ->
  store_ids s' = Some zs ->
  Forall (fun z => z < assignment_counter s') zs.
Proof.
  rewrite import_data_spec. simpl.
  destruct (getitem doc "assignments") as [records|e]; [|discriminate].
  destruct (counter_after records) as [c|e] eqn:Hc; [|discriminate].
  intros [= <-]. unfold store_ids. simpl.
  destruct records as [| | | |items|]; try discriminate.
  intros Hids. destruct items as [|a rest].
  - injection Hids as <-. constructor.
  - destruct (counter_after_ids (a :: rest) zs) as (m & Hm & _ & Hall);
      [discriminate | exact Hids |].
    rewrite Hm in Hc. injection Hc as <-.
    eapply Forall_impl; [exact Hall|]. simpl. intros; lia.
Qed.

(** An import can lower the counter: it is recomputed from the uploaded
    records alone. *)
Example import_resets_counter :
  assignment_counter two_records = 3 /\
  assignment_counter
    (snd (import_data (Json (PDict [("assignments"%string, PList [])])) two_records)) = 1.
Proof. split; reflexivity. Qed.

(** ** Ids handed out by the create form (C6) *)






(** ** The record frame *)

Lemma has_column_app col cols more :
  has_column col (cols ++ more) = has_column col cols || has_column col more.
Proof. unfold has_column. apply existsb_app. Qed.

Lemma add_columns_keeps col row : forall cols,
  has_column col cols = true -> has_column col (add_columns cols row) = true.
Proof.
  unfold add_columns. induction row as [|[k v] row IH]; intros cols H; simpl; [exact H|].
  apply IH. destruct (has_column k cols); [exact H|].
  rewrite has_column_app, H. reflexivity.
Qed.

Lemma add_columns_adds col row : forall cols,
  dict_get col row <> None -> has_column col (add_columns cols row) = true.
Proof.
  unfold add_columns. induction row as [|[k v] row IH]; intros cols H; simpl in *;
    [contradiction|].
  destruct (String.eqb_spec k col) as [->|Hne].
  - apply (add_columns_keeps col row). destruct (has_column col cols) eqn:Hc; [exact Hc|].
    rewrite has_column_app. simpl. rewrite String.eqb_refl. apply orb_true_r.
  - now apply IH.
Qed.

Lemma columns_keep col rs : forall cols,
  has_column col cols = true -> has_column col (fold_left add_columns rs cols) = true.
Proof.
  induction rs as [|r rs IH]; intros cols H; simpl; [exact H|].
  apply IH. now apply add_columns_keeps.
Qed.

(** A key that the first row has is a column of the frame. *)
Lemma columns_of_first_row col r rs :
  dict_get col r <> None ->
  has_column col (fold_left add_columns (r :: rs) []) = true.
Proof. intros H. simpl. apply columns_keep. now apply add_columns_adds. Qed.

Lemma boolean_index_map {A} (p : A -> bool) (l : list A) :
  boolean_index (map p l) l = List.filter p l.
Proof. induction l as [|x l IH]; simpl; [reflexivity|]. now rewrite IH. Qed.

Lemma where_eq_spec df col value :
  has_column col (columns df) = true ->
  where_eq df col value
  = Ok {| columns := columns df;
          rows := List.filter (fun d => cell_is col value (PDict d)) (rows df) |}.
Proof.
  intros H. unfold where_eq, column. rewrite H. simpl. do 2 f_equal.
  rewrite map_map.
  rewrite <- (boolean_index_map (fun d => cell_is col value (PDict d)) (rows df)).
  f_equal. apply map_ext. intros d. unfold cell_is. simpl.
  now destruct (dict_get col d).
Qed.

Lemma filter_all {A} (p : A -> bool) (l : list A) :
  (forall x, p x = true) -> List.filter p l = l.
Proof. intros H. induction l as [|x l IH]; simpl; [reflexivity|]. now rewrite H, IH. Qed.

Lemma filter_none {A} (p : A -> bool) (l : list A) :
  (forall x, In x l -> p x = false) -> List.filter p l = [].
Proof.
  induction l as [|x l IH]; simpl; intros H; [reflexivity|].
  rewrite (H x) by now left. apply IH. intros y Hy. apply H. now right.
Qed.

Lemma filter_filter {A} (p q : A -> bool) (l : list A) :
  List.filter q (List.filter p l) = List.filter (fun x => p x && q x) l.
Proof.
  induction l as [|x l IH]; simpl; [reflexivity|].
  destruct (p x); simpl; [destruct (q x)|]; now rewrite IH.
Qed.

Lemma filter_map_swap {A B} (f : A -> B) (p : B -> bool) (l : list A) :
  map f (List.filter (fun x => p (f x)) l) = List.filter p (map f l).
Proof.
  induction l as [|x l IH]; simpl; [reflexivity|].
  destruct (p (f x)); simpl; now rewrite IH.
Qed.

Lemma filter_by_spec selected col df :
  has_column col (columns df) = true ->
  filter_by selected col df
  = Ok {| columns := columns df;
          rows := List.filter (fun d => passes selected col (PDict d)) (rows df) |}.
Proof.
  intros H. unfold filter_by, passes.
  destruct (selected =? "All")%string; simpl.
  - rewrite filter_all by reflexivity. now destruct df.
  - now apply where_eq_spec.
Qed.

(** A list of dicts is what the frame is built from. *)
Lemma rows_of_dicts (p : pyval -> bool) recs :
  (forall a, p a = true -> exists d, a = PDict d) ->
  forallb p recs = true ->
  exists ds, res_map_list as_row recs = Ok ds /\ recs = map PDict ds.
Proof.
  intros Hp. induction recs as [|a recs IH]; simpl.
  - exists []. auto.
  - rewrite andb_true_iff. intros [Ha Hrecs].
    destruct (Hp a Ha) as [d ->]. destruct (IH Hrecs) as (ds & -> & ->).
    now exists (d :: ds).
Qed.

Lemma has_key_dict k a : has_key k a = true -> exists d, a = PDict d /\ dict_get k d <> None.
Proof.
  unfold has_key. destruct a; simpl; try discriminate.
  destruct (dict_get k entries) eqn:Hk; [|discriminate].
  intros _. exists entries. split; [reflexivity | congruence].
Qed.

(** ** Manage Assignments: the filters (C9) *)

(** C9: over a store of records that carry the three filtered fields, the
    page lists exactly the records that pass every selected filter, in store
    order.  With "All" selected three times that is the whole store in its
    order, and a status that no record has gives an empty listing. *)
Theorem listing_is_the_matching_records engineer status priority s recs :
  assignments s = PList recs ->
  forallb listable recs = true ->
  exists l,
    manage_assignments engineer status priority s = Ok l /\
    shown_records l = List.filter (matches_filters engineer status priority) recs /\
    (engineer = "All"%string -> status = "All"%string -> priority = "All"%string ->
     shown_records l = recs) /\
    (status <> "All"%string ->
     (forall a, In a recs -> cell_is "status" status a = false) ->
     shown_records l = []).
Proof.
  intros Hs Hrecs.
  assert (Hgoal : exists l,
            manage_assignments engineer status priority s = Ok l /\
            shown_records l = List.filter (matches_filters engineer status priority) recs).
  { unfold manage_assignments. rewrite Hs.
    destruct recs as [|a recs]; [eexists; split; reflexivity|].
    cbn [truthy negb].
    destruct (rows_of_dicts listable (a :: recs)) as (ds & Hrows & Hds); [| exact Hrecs |].
    { intros x Hx. unfold listable in Hx. apply andb_true_iff in Hx as [Hx _].
      apply andb_true_iff in Hx as [Hx _]. apply has_key_dict in Hx as (d & -> & _). eauto. }
    unfold pd_DataFrame. rewrite Hrows. cbn [res_bind].
    destruct ds as [|d ds]; [discriminate|]. injection Hds as -> ->.
    simpl in Hrecs. apply andb_true_iff in Hrecs as [Ha _].
    unfold listable in Ha. apply andb_true_iff in Ha as [Ha Hpr].
    apply andb_true_iff in Ha as [Hen Hst].
    apply has_key_dict in Hen as (d1 & [= <-] & Hen).
    apply has_key_dict in Hst as (d2 & [= <-] & Hst).
    apply has_key_dict in Hpr as (d3 & [= <-] & Hpr).
    rewrite filter_by_spec by (now apply columns_of_first_row). cbn [res_bind columns rows].
    rewrite filter_by_spec by (now apply columns_of_first_row). cbn [res_bind columns rows].
    rewrite filter_by_spec by (now apply columns_of_first_row). cbn [res_bind columns rows].
    eexists. split; [reflexivity|]. cbn [shown_records].
    rewrite !filter_filter.
    change (PDict d :: map PDict ds) with (map PDict (d :: ds)).
    rewrite <- (filter_map_swap PDict (matches_filters engineer status priority)).
    f_equal. apply List.filter_ext. intros x. unfold matches_filters.
    now rewrite andb_assoc. }
  destruct Hgoal as (l & Hl & Hshown). exists l. repeat split; try assumption.
  - intros -> -> ->. rewrite Hshown. now apply filter_all.
  - intros Hne Hnone. rewrite Hshown. apply filter_none. intros a Ha.
    unfold matches_filters, passes. rewrite (Hnone a Ha).
    destruct (String.eqb_spec status "All"); [contradiction|].
    simpl. now rewrite andb_false_r.
Qed.

Lemma listing_is_the_matching_records_witness :
  exists l,
    manage_assignments "All" "Not Started" "All" two_records = Ok l /\
    length (shown_records l) = 1%nat.
Proof.
  destruct (listing_is_the_matching_records "All" "Not Started" "All" two_records
              (store_records two_records) eq_refl eq_refl)
    as (l & Hl & Hshown & _).
  exists l. split; [exact Hl|]. now rewrite Hshown.
Defined.

(** ** Dashboard: the overdue metric (C7) *)

Section Overdue.
Variable to_datetime : pyval -> res (option datetime).
Variable now : datetime.

Lemma readable_due_dict a :
  readable_due to_datetime a ->
  exists d v t, a = PDict d /\ dict_get "due_date" d = Some v /\ to_datetime v = Ok t.
Proof.
  intros (v & t & Hv & Ht). destruct a; try discriminate.
  apply getitem_dict_Ok in Hv. eauto 6.
Qed.

Lemma overdue_rows ds :
  Forall (fun d => readable_due to_datetime (PDict d)) ds ->
  exists stamps,
    series_to_datetime to_datetime (map (dict_get "due_date") ds) = Ok stamps /\
    length (boolean_index (map (stamp_before now) stamps) ds)
    = how_many (due_before to_datetime now) (map PDict ds).
Proof.
  unfold series_to_datetime, how_many.
  induction 1 as [|d ds Hd _ (stamps & Hstamps & Hcount)]; simpl.
  - exists []. auto.
  - apply readable_due_dict in Hd as (d' & v & t & [= <-] & Hv & Ht).
    rewrite Hv, Ht, Hstamps. simpl. exists (t :: stamps). split; [reflexivity|].
    unfold due_before at 1. simpl. rewrite Hv, Ht.
    destruct t as [t|]; simpl; [destruct (datetime_ltb t now)|]; simpl;
      now rewrite Hcount.
Qed.

Lemma overdue_spec recs :
  recs <> [] ->
  Forall (readable_due to_datetime) recs ->
  exists df,
    pd_DataFrame (PList recs) = Ok df /\
    overdue to_datetime df now = Ok (how_many (due_before to_datetime now) recs).
Proof.
  intros Hne Hall.
  assert (Hds : exists ds, res_map_list as_row recs = Ok ds /\ recs = map PDict ds).
  { clear Hne. induction Hall as [|a recs Ha _ (ds & Hds & ->)]; simpl.
    - exists []. auto.
    - apply readable_due_dict in Ha as (d & _ & _ & -> & _). simpl. rewrite Hds.
      now exists (d :: ds). }
  destruct Hds as (ds & Hrows & ->).
  unfold pd_DataFrame. rewrite Hrows. simpl. eexists. split; [reflexivity|].
  destruct ds as [|d ds]; [contradiction|].
  assert (Hreadable : Forall (fun d => readable_due to_datetime (PDict d)) (d :: ds)).
  { clear -Hall. remember (d :: ds) as l eqn:E. clear E.
    induction l as [|x l IH]; [constructor|].
    inversion Hall; subst. constructor; auto. }
  destruct (overdue_rows (d :: ds) Hreadable) as (stamps & Hstamps & Hcount).
  unfold overdue, column. cbn [columns rows].
  rewrite columns_of_first_row.
  - cbn [res_bind]. rewrite Hstamps. cbn [res_bind]. now rewrite <- Hcount.
  - inversion Hreadable as [|? ? Hd _]; subst.
    apply readable_due_dict in Hd as (d' & v & t & [= <-] & Hv & _). congruence.
Qed.

Lemma restatused_due a a' :
  restatused a a' ->
  getitem a' "due_date" = getitem a "due_date".
Proof.
  intros (st & Hset). destruct a; try discriminate. injection Hset as <-.
  now apply getitem_set_ne.
Qed.

Lemma restatused_all recs recs' :
  Forall2 restatused recs recs' ->
  Forall (readable_due to_datetime) recs ->
  Forall (readable_due to_datetime) recs' /\
  how_many (due_before to_datetime now) recs'
  = how_many (due_before to_datetime now) recs.
Proof.
  unfold how_many.
  induction 1 as [|a a' recs recs' Ha _ IH]; intros Hall; [auto|].
  inversion Hall as [|? ? Hra Hrest]; subst. destruct (IH Hrest) as (Hall' & Hcount).
  pose proof (restatused_due a a' Ha) as Hdue. split.
  - constructor; [|exact Hall']. destruct Hra as (v & t & Hv & Ht).
    exists v, t. now rewrite Hdue.
  - assert (Hb : due_before to_datetime now a' = due_before to_datetime now a)
      by (unfold due_before; now rewrite Hdue).
    simpl. rewrite Hb. destruct (due_before to_datetime now a); simpl;
      now rewrite Hcount.
Qed.

End Overdue.

(** C7: over a non-empty list of records whose due dates pandas can read,
    the overdue metric is the number of records whose due date is strictly
    before [now].  The status is never looked at: writing any statuses over
    the records' own - "Completed" included - gives the same number. *)
Theorem overdue_counts_by_due_date_alone to_datetime now recs :
  recs <> [] ->
  Forall (readable_due to_datetime) recs ->
  exists df,
    pd_DataFrame (PList recs) = Ok df /\
    overdue to_datetime df now = Ok (how_many (due_before to_datetime now) recs) /\
    forall recs', Forall2 restatused recs recs' ->
      exists df', pd_DataFrame (PList recs') = Ok df' /\
                  overdue to_datetime df' now = overdue to_datetime df now.
Proof.
  intros Hne Hall.
  destruct (overdue_spec to_datetime now recs Hne Hall) as (df & Hdf & Hcount).
  exists df. split; [exact Hdf|]. split; [exact Hcount|].
  intros recs' Hre.
  destruct (restatused_all to_datetime now recs recs' Hre Hall) as (Hall' & Hsame).
  destruct (overdue_spec to_datetime now recs') as (df' & Hdf' & Hcount'); [| exact Hall' |].
  { intros ->. inversion Hre; subst. contradiction. }
  exists df'. split; [exact Hdf'|]. now rewrite Hcount', Hcount, Hsame.
Qed.

Lemma overdue_counts_by_due_date_alone_witness :
  getitem (restatus_open (PDict [("status"%string, PStr "Completed")])) "status"
  = Ok (PStr "In Progress") /\
  exists df,
    pd_DataFrame (assignments two_records) = Ok df /\
    overdue to_datetime_Ymd df morning = Ok 1%nat /\
    exists df',
      pd_DataFrame (PList (map restatus_open (store_records two_records))) = Ok df' /\
      overdue to_datetime_Ymd df' morning = Ok 1%nat.
Proof.
  split; [reflexivity|].
  destruct (overdue_counts_by_due_date_alone to_datetime_Ymd morning
              (store_records two_records))
    as (df & Hdf & Hcount & Hsame).
  - discriminate.
  - repeat constructor; eexists _, _; split; reflexivity.
  - exists df. split; [exact Hdf|]. split; [exact Hcount|].
    destruct (Hsame (map restatus_open (store_records two_records)))
      as (df' & Hdf' & Hcount').
    + repeat constructor; eexists; reflexivity.
    + exists df'. split; [exact Hdf'|]. now rewrite Hcount', Hcount.
Defined.

(** ** The scenarios of the specification, run on the handlers *)

Example scenario_create_and_list :
  let a := new_assignment review_spec morning 1 in
  let b := new_assignment cable_schedule morning 2 in
  let s := creates [(review_spec, morning); (cable_schedule, morning)] initial in
  assignments s = PList [a; b] /\
  getitem a "status" = Ok (PStr "Not Started") /\
  getitem a "progress_percentage" = Ok (PInt 0) /\
  res_bind (manage_assignments "All" "Not Started" "All" s)
    (fun l => Ok (shown_records l)) = Ok [a; b].
Proof. repeat split. Qed.

Example scenario_update :
  let s := creates [(review_spec, morning); (cable_schedule, morning)] initial in
  let s' := snd (update_assignment mark_done morning s) in
  exists a', store_records s' = [a'; new_assignment cable_schedule morning 2] /\
             getitem a' "status" = Ok (PStr "Completed") /\
             getitem a' "progress_percentage" = Ok (PInt 100).
Proof. eexists. repeat split. Qed.

Example scenario_import_without_assignments :
  import_data (Json (PDict [("export_date"%string, PStr "2026-03-07T09:05:00")])) two_records
  = (Ok (st_error_with "Import failed: " (KeyError "assignments")), two_records).
Proof. reflexivity. Qed.
